(** * Text-to-speech converter (app.py) and its command line (cli.py)

    A shallow embedding of the two source files of the repository.

    - [text_to_speech] (app.py) validates its text, builds a [gTTS] object
      with the language code 'en', saves it at the output path and returns
      [True].
    - [main] (cli.py) declares an argparse parser with the positional
      [text] and the option [-o/--output], prints a line, calls
      [text_to_speech] and prints a second line.

    Python code is effectful: it raises, prints, calls the gtts package and
    writes files.  The embedding threads a [World] through a state and
    exception monad [M].  What lies outside the repository (the gtts
    package, the host file system, the token matching of argparse) is the
    interface [Platform]; every theorem holds for all of its instances. *)

From Stdlib Require Import ZArith List Lia Ascii String.
From stdpp Require Import base option list strings gmap fin_maps.

Local Open Scope Z_scope.
Local Open Scope string_scope.
Local Open Scope list_scope.

(** ** Python values and exceptions *)

Inductive pyval : Type :=
  | PyNone
  | PyBool (b : bool)
  | PyInt (n : Z)
  | PyStr (s : string)
  | PyBytes (bs : list Byte.byte).

(** [bool(x)], the test behind [if not text]. *)
Definition truthy (v : pyval) : bool :=
  match v with
  | PyNone => false
  | PyBool b => b
  | PyInt n => negb (Z.eqb n 0)
  | PyStr s => negb (String.eqb s "")
  | PyBytes bs => match bs with [] => false | _ :: _ => true end
  end.

(** An exception is its class name and its argument. *)
Record exn : Type := Exn { exn_class : string; exn_arg : pyval }.

Definition ValueError (msg : string) : exn := Exn "ValueError" (PyStr msg).
Definition AttributeError (name : string) : exn := Exn "AttributeError" (PyStr name).
Definition OSError (path : string) : exn := Exn "OSError" (PyStr path).
Definition SystemExit (code : Z) : exn := Exn "SystemExit" (PyInt code).

Inductive result (A : Type) : Type :=
  | Ok (a : A)
  | Raise (e : exn).
Arguments Ok {A} a.
Arguments Raise {A} e.

(** ** What the program does to its surroundings *)

(** The object [gTTS(text=..., lang=...)] holds its two arguments. *)
Record tts : Type := Tts { tts_text : pyval; tts_lang : string }.

Inductive event : Type :=
  | Stdout (line : string)                     (* print(...) on stdout *)
  | GttsNew (text : pyval) (lang : string)     (* gTTS(text=.., lang=..) *)
  | GttsSave (t : tts) (savefile : string)     (* tts.save(savefile) *)
  | Traceback (e : exn).                       (* uncaught exception report *)

(** The language codes handed to the gtts package by a run. *)
Definition engine_langs (evs : list event) : list string :=
  flat_map (fun ev =>
              match ev with
              | GttsNew _ lang => [lang]
              | GttsSave t _ => [tts_lang t]
              | _ => []
              end) evs.

(** ** argparse declarations *)

Record Action : Type := mkAction {
  option_strings : list string;
  dest : string;
  default_value : option string;
  required : bool;
  help : string
}.

Record ArgumentParser : Type := mkParser {
  description : string;
  actions : list Action
}.

Definition is_flag (s : string) : bool :=
  match s with
  | String "-"%char _ => true
  | _ => false
  end.

Definition is_long_flag (s : string) : bool :=
  match s with
  | String "-"%char (String "-"%char _) => true
  | _ => false
  end.

Fixpoint lstrip_dash (s : string) : string :=
  match s with
  | String "-"%char r => lstrip_dash r
  | _ => s
  end.

Fixpoint dash_to_underscore (s : string) : string :=
  match s with
  | EmptyString => EmptyString
  | String c r =>
      String (if Ascii.eqb c "-"%char then "_"%char else c) (dash_to_underscore r)
  end.

(** [parser.add_argument] with its names or flags, [default] and [help]:
    a single name without dash declares a required positional; otherwise
    an optional whose [dest] comes from the first long flag (or else the
    first flag), dashes stripped. *)
Definition add_argument (name_or_flags : list string)
    (default : option string) (help : string) : Action :=
  match name_or_flags with
  | [name] =>
      if is_flag name
      then mkAction [name] (dash_to_underscore (lstrip_dash name)) default false help
      else mkAction [] name default true help
  | _ =>
      let first := List.hd "" name_or_flags in
      let d := List.hd first (List.filter is_long_flag name_or_flags) in
      mkAction name_or_flags (dash_to_underscore (lstrip_dash d)) default false help
  end.

(** The [-h/--help] action every [ArgumentParser] gets; it stores
    nothing in the namespace. *)
Definition help_action : Action :=
  mkAction ["-h"; "--help"] "help" None false "show this help message and exit".

(** Lines 7-9 of cli.py. *)
Definition parser : ArgumentParser :=
  mkParser "Convert text to speech"
    [ help_action;
      add_argument ["text"] None "Text to convert to speech";
      add_argument ["-o"; "--output"] (Some "output.mp3")
        "Output filename (default: output.mp3)" ].

(** The namespace before the command line is read: every declared default,
    the first declaration of a [dest] winning. *)
Definition defaults (acts : list Action) : gmap string string :=
  foldl (fun ns a =>
           match default_value a, ns !! dest a with
           | Some v, None => <[dest a := v]> ns
           | _, _ => ns
           end) ∅ acts.

(** The namespace after the command line supplied [seen]. *)
Definition namespace_of (acts : list Action) (seen : list (string * string))
    : gmap string string :=
  foldl (fun ns kv => <[kv.1 := kv.2]> ns) (defaults acts) seen.

Definition supplied (seen : list (string * string)) (d : string) : bool :=
  existsb (fun kv => String.eqb kv.1 d) seen.

(** ** Process exit *)

Definition is_system_exit (e : exn) : bool :=
  String.eqb (exn_class e) "SystemExit".

(** The status of a process ended by [SystemExit(code)]: the low byte of
    an integer code that fits a C [long] (64 bits), and 255 for an integer
    that does not, the conversion then yielding -1. *)
Definition exit_code (e : exn) : Z :=
  match exn_arg e with
  | PyNone => 0
  | PyInt c =>
      if Z.leb (- 2 ^ 63) c && Z.ltb c (2 ^ 63) then Z.land c 255 else 255
  | PyBool b => if b then 1 else 0
  | _ => 1
  end.

(** ** The platform: everything that is not code of the repository *)

Class Platform : Type := {
  (** hidden state of the speech service (network, quota, ...) *)
  service_state : Type;
  (** the constructor of gTTS: may raise, keeps no audio *)
  gtts_construct : pyval -> string -> service_state -> result unit * service_state;
  (** the request that yields the audio byte stream of a text *)
  gtts_stream : pyval -> string -> service_state -> result (list Byte.byte) * service_state;
  (** can the path be opened for writing *)
  os_writable : string -> bool;
  (** argparse's matching of command-line tokens against the declared
      actions: the (dest, value) pairs the command line supplies, in
      order, or the exit it performs (usage error, -h) *)
  argparse_scan : list Action -> list string -> result (list (string * string));
  (** the lines argparse writes on stdout when it performs that exit: the
      help text for -h, nothing for a usage error (which goes to stderr) *)
  argparse_stdout : list Action -> list string -> list string
}.

Section Program.

Context `{P : Platform}.

Record World : Type := mkWorld {
  argv : list string;                       (* sys.argv[1:] *)
  files : gmap string (list Byte.byte);     (* path, as spelled -> content *)
  service : service_state;
  trace : list event                        (* oldest first *)
}.

Definition set_files (f : gmap string (list Byte.byte)) (w : World) : World :=
  mkWorld (argv w) f (service w) (trace w).
Definition set_service (s : service_state) (w : World) : World :=
  mkWorld (argv w) (files w) s (trace w).
Definition set_trace (t : list event) (w : World) : World :=
  mkWorld (argv w) (files w) (service w) t.

(** ** The monad of Python statements *)

Definition M (A : Type) : Type := World -> result A * World.

Definition ret {A : Type} (a : A) : M A := fun w => (Ok a, w).

Definition raise {A : Type} (e : exn) : M A := fun w => (Raise e, w).

Definition bind {A B : Type} (m : M A) (k : A -> M B) : M B :=
  fun w =>
    match m w with
    | (Ok a, w') => k a w'
    | (Raise e, w') => (Raise e, w')
    end.

Declare Scope py_scope.
Delimit Scope py_scope with py.
Notation "x <- m ;; k" := (bind m (fun x => k))
  (at level 100, m at next level, right associativity) : py_scope.
Notation "m ;; k" := (bind m (fun _ => k))
  (at level 100, right associativity) : py_scope.
Local Open Scope py_scope.

Definition emit (ev : event) : M unit :=
  fun w => (Ok tt, set_trace (trace w ++ [ev]) w).

Definition print (line : string) : M unit := emit (Stdout line).

(** A call into the speech service: the service state moves on whether
    the call returns or raises. *)
Definition call_service {A : Type}
    (f : service_state -> result A * service_state) : M A :=
  fun w => let (r, s) := f (service w) in (r, set_service s w).

(** [open(path, 'wb')] followed by one write: create or overwrite. *)
Definition write_file (path : string) (data : list Byte.byte) : M unit :=
  fun w =>
    if os_writable path
    then (Ok tt, set_files (<[path := data]> (files w)) w)
    else (Raise (OSError path), w).

(** ** The gtts package as the program uses it *)

Definition gTTS (text : pyval) (lang : string) : M tts :=
  emit (GttsNew text lang);;
  call_service (gtts_construct text lang);;
  ret (Tts text lang).

(** Modelled from the spec: [gTTS.save] is a method of the gtts package,
    which is not part of the repository.  Section 6 of the specification
    describes the collaborator as [synthesize(text, languageCode) ->
    audioBytes], the byte stream being persisted at the output path by one
    create-or-overwrite write; section 4.2 gives the order synthesize,
    then write. *)
Definition save (t : tts) (savefile : string) : M unit :=
  emit (GttsSave t savefile);;
  audio <- call_service (gtts_stream (tts_text t) (tts_lang t));;
  write_file savefile audio.

(** ** app.py *)

(** [def text_to_speech(text, output_filename='output.mp3')].  The second
    argument is [None] when the caller omits it. *)
Definition text_to_speech (text : pyval) (output_filename : option string)
    : M pyval :=
  let output_filename := default "output.mp3" output_filename in
  if negb (truthy text) then
    raise (ValueError "Text cannot be empty")
  else
    tts <- gTTS text "en";;
    save tts output_filename;;
    ret (PyBool true).

(** The two calls [text_to_speech] makes into the gtts package, on their
    own. *)
Definition engine_calls (text : pyval) (lang savefile : string) : M unit :=
  t <- gTTS text lang;;
  save t savefile.

(** What the service answers when an object is constructed and its stream
    is requested, as [text_to_speech] does one after the other. *)
Definition synthesize (text : pyval) (lang : string) (s : service_state)
    : result (list Byte.byte) * service_state :=
  match gtts_construct text lang s with
  | (Ok _, s1) => gtts_stream text lang s1
  | (Raise e, s1) => (Raise e, s1)
  end.

(** The run of [text_to_speech] reached the gtts package: the first thing
    it did was to construct [gTTS(text=text, lang='en')]. *)
Definition synthesis_attempted (text : pyval) (o : option string) (w : World)
    : Prop :=
  exists evs,
    trace (text_to_speech text o w).2 = (trace w ++ GttsNew text "en" :: evs)%list.

(** ** cli.py *)

(** [parser.parse_args()].  As argparse does, the namespace starts from
    the declared defaults, the values found on the command line override
    them, and a required argument the command line did not supply ends the
    process with status 2.  (For an argument without default argparse
    stores [None]; here the attribute is left out, which no run can tell
    apart, since [text] is required and [help] is never read.)  When
    argparse ends the run while matching the tokens, what it wrote on
    stdout (the help text of -h) is on the trace; a usage message goes to
    stderr and is not recorded. *)
Definition parse_args (parser : ArgumentParser) : M (gmap string string) :=
  fun w =>
    match argparse_scan (actions parser) (argv w) with
    | Raise e =>
        (Raise e,
         set_trace
           (trace w ++ map Stdout (argparse_stdout (actions parser) (argv w))) w)
    | Ok seen =>
        if forallb (fun a => implb (required a) (supplied seen (dest a)))
                   (actions parser)
        then (Ok (namespace_of (actions parser) seen), w)
        else (Raise (SystemExit 2), w)
    end.

(** [args.name] *)
Definition getattr (args : gmap string string) (name : string) : M string :=
  match args !! name with
  | Some v => ret v
  | None => raise (AttributeError name)
  end.

Definition main : M unit :=
  args <- parse_args parser;;
  text <- getattr args "text";;
  print ("Converting text to speech: '" +:+ text +:+ "'");;
  text <- getattr args "text";;
  output <- getattr args "output";;
  text_to_speech (PyStr text) (Some output);;
  output <- getattr args "output";;
  print ("Speech saved to '" +:+ output +:+ "'").

(** [if __name__ == '__main__': main()], run by the interpreter: a normal
    return exits with 0, [SystemExit] exits with its code, any other
    exception is reported and exits with 1. *)
Definition script (w : World) : Z * World :=
  match main w with
  | (Ok _, w') => (0, w')
  | (Raise e, w') =>
      if is_system_exit e then (exit_code e, w')
      else (1, set_trace (trace w' ++ [Traceback e]) w')
  end.

(** The lines a list of events puts on stdout. *)
Definition stdout_lines (evs : list event) : list string :=
  flat_map (fun ev => match ev with Stdout line => [line] | _ => [] end) evs.

(** ** tests/unit/test_tts.py and tests/integration/test_audio.py *)

(** [os.path.exists(path)]: never raises. *)
Definition os_path_exists (path : string) : M bool :=
  fun w => (Ok (bool_decide (is_Some (files w !! path))), w).

(** [os.path.getsize(path)]: the size in bytes, or [FileNotFoundError]. *)
Definition os_path_getsize (path : string) : M Z :=
  fun w =>
    match files w !! path with
    | Some content => (Ok (Z.of_nat (length content)), w)
    | None => (Raise (Exn "FileNotFoundError" (PyStr path)), w)
    end.

(** [os.remove(path)]: the file is gone afterwards, or
    [FileNotFoundError] when there was none. *)
Definition os_remove (path : string) : M unit :=
  fun w =>
    match files w !! path with
    | Some _ => (Ok tt, set_files (delete path (files w)) w)
    | None => (Raise (Exn "FileNotFoundError" (PyStr path)), w)
    end.

(** The statement [assert cond]. *)
Definition py_assert (cond : bool) : M unit :=
  if cond then ret tt else raise (Exn "AssertionError" PyNone).

(** The class hierarchy of exceptions, [issubclass cls base], belongs to
    the interpreter and the installed packages. *)
Variable issubclass : string -> string -> bool.

(** [with pytest.raises(cls): body]: an exception of the class (or of a
    subclass) ends the block normally, another exception goes through,
    and a body that raises nothing fails the test. *)
Definition pytest_raises {A : Type} (cls : string) (body : M A) : M unit :=
  fun w =>
    match body w with
    | (Ok _, w') => (Raise (Exn "Failed" (PyStr ("DID NOT RAISE " +:+ cls))), w')
    | (Raise e, w') =>
        if issubclass (exn_class e) cls then (Ok tt, w') else (Raise e, w')
    end.

(** tests/unit/test_tts.py, lines 5-15. *)
Definition test_text_to_speech_creates_file : M unit :=
  let output_file := "test_output.mp3" in
  let test_text := "Hello, this is a test" in
  text_to_speech (PyStr test_text) (Some output_file);;
  found <- os_path_exists output_file;;
  py_assert found;;
  size <- os_path_getsize output_file;;
  py_assert (Z.ltb 0 size);;
  os_remove output_file.

(** tests/unit/test_tts.py, lines 17-19. *)
Definition test_text_to_speech_handles_empty_text : M unit :=
  pytest_raises "ValueError" (text_to_speech (PyStr "") None).

(** tests/integration/test_audio.py, lines 5-16. *)
Definition test_audio_file_properties : M unit :=
  let output_file := "test_audio.mp3" in
  let test_text := "Test audio generation" in
  text_to_speech (PyStr test_text) (Some output_file);;
  found <- os_path_exists output_file;;
  py_assert found;;
  size <- os_path_getsize output_file;;
  py_assert (Z.ltb 0 size);;
  os_remove output_file.

(** The body the two file tests share, for any text and file name. *)
Definition check_created_file (test_text output_file : string) : M unit :=
  text_to_speech (PyStr test_text) (Some output_file);;
  found <- os_path_exists output_file;;
  py_assert found;;
  size <- os_path_getsize output_file;;
  py_assert (Z.ltb 0 size);;
  os_remove output_file.

End Program.

(** ** A reference platform

    A small instance of [Platform] on which the program runs inside Rocq:
    a service that answers three requests and then reports its quota, that
    refuses texts without anything to speak, a file system that refuses
    the empty path, and a scanner for the plain command lines
    [TEXT], [TEXT -o OUT], [-o OUT TEXT] and [-h]. *)
Module Demo.

Fixpoint speakable (s : string) : bool :=
  match s with
  | EmptyString => false
  | String c r => negb (Ascii.eqb c " "%char) || speakable r
  end.

Definition construct (text : pyval) (lang : string) (used : nat)
    : result unit * nat :=
  (Ok tt, used).

Definition quota_error : exn :=
  Exn "gTTSError" (PyStr "429 (Too Many Requests) from TTS API").

Definition stream (text : pyval) (lang : string) (used : nat)
    : result (list Byte.byte) * nat :=
  if (3 <=? used)%nat then (Raise quota_error, used)
  else
    match text with
    | PyStr s =>
        if speakable s
        then (Ok (Byte.xff :: Byte.xfb :: default Byte.x00 (Byte.of_nat used)
                    :: list_byte_of_string s), S used)
        else (Raise (Exn "AssertionError" (PyStr "No text to send to TTS API")), used)
    | _ => (Raise (Exn "TypeError" PyNone), used)
    end.

Definition writable (path : string) : bool := negb (String.eqb path "").

Definition scan (acts : list Action) (args : list string)
    : result (list (string * string)) :=
  match args with
  | [] => Ok []
  | ["-h"] => Raise (SystemExit 0)
  | [t] => if is_flag t then Raise (SystemExit 2) else Ok [("text", t)]
  | ["-o"; o; t] => Ok [("output", o); ("text", t)]
  | [t; "-o"; o] => Ok [("text", t); ("output", o)]
  | _ => Raise (SystemExit 2)
  end.

(** The help text of Python 3.11 for the parser of cli.py, the program
    being run as [cli.py]. *)
Definition help_text : list string :=
  [ "usage: cli.py [-h] [-o OUTPUT] text";
    "";
    "Convert text to speech";
    "";
    "positional arguments:";
    "  text                  Text to convert to speech";
    "";
    "options:";
    "  -h, --help            show this help message and exit";
    "  -o OUTPUT, --output OUTPUT";
    "                        Output filename (default: output.mp3)" ].

Definition scan_stdout (acts : list Action) (args : list string) : list string :=
  match args with
  | ["-h"] => help_text
  | _ => []
  end.

Definition platform : Platform :=
  {| service_state := nat;
     gtts_construct := construct;
     gtts_stream := stream;
     os_writable := writable;
     argparse_scan := scan;
     argparse_stdout := scan_stdout |}.

(** A fresh process: the given command line, the given files, no request
    made so far, nothing printed. *)
Definition world (args : list string) (fs : gmap string (list Byte.byte))
    (used : nat) : World (P := platform) :=
  mkWorld (P := platform) args fs used [].

(** A library call, nothing on disk, the service available. *)
Definition fresh : World (P := platform) := world [] ∅ 0.

(** The command line [hi] when the quota of the service is used up. *)
Definition exhausted : World (P := platform) := world ["hi"] ∅ 3.

(** Exceptions matched by the name of their own class. *)
Definition same_class (cls base : string) : bool := String.eqb cls base.

(** A second platform, whose service answers every request with an empty
    stream. *)
Definition mute : Platform :=
  {| service_state := unit;
     gtts_construct := fun _ _ s => (Ok tt, s);
     gtts_stream := fun _ _ s => (Ok [], s);
     os_writable := writable;
     argparse_scan := scan;
     argparse_stdout := scan_stdout |}.

Definition mute_world (fs : gmap string (list Byte.byte)) : World (P := mute) :=
  mkWorld (P := mute) [] fs tt [].

End Demo.

(** * Properties *)

Section Properties.

Context `{P : Platform}.

Implicit Types (text : pyval) (w : World) (e : exn).

(** ** Running [text_to_speech] *)

Lemma bind_ok {A B : Type} (m : M A) (k : A -> M B) w a w1 :
  m w = (Ok a, w1) -> bind m k w = k a w1.
Proof. intros H. unfold bind. now rewrite H. Qed.

Lemma bind_raise {A B : Type} (m : M A) (k : A -> M B) w e w1 :
  m w = (Raise e, w1) -> bind m k w = (Raise e, w1).
Proof. intros H. unfold bind. now rewrite H. Qed.

Lemma text_to_speech_falsy text o w :
  truthy text = false ->
  text_to_speech text o w = (Raise (ValueError "Text cannot be empty"), w).
Proof. intros H. unfold text_to_speech. now rewrite H. Qed.

(** The whole behaviour on a text that passes the check, as one equation. *)
Lemma text_to_speech_truthy text o w :
  truthy text = true ->
  text_to_speech text o w =
    let p := default "output.mp3" o in
    match gtts_construct text "en" (service w) with
    | (Raise e, s1) =>
        (Raise e, mkWorld (argv w) (files w) s1 (trace w ++ [GttsNew text "en"]))
    | (Ok _, s1) =>
        let tr :=
          (trace w ++ [GttsNew text "en"; GttsSave (Tts text "en") p])%list in
        match gtts_stream text "en" s1 with
        | (Raise e, s2) => (Raise e, mkWorld (argv w) (files w) s2 tr)
        | (Ok audio, s2) =>
            if os_writable p
            then (Ok (PyBool true),
                  mkWorld (argv w) (<[p := audio]> (files w)) s2 tr)
            else (Raise (OSError p), mkWorld (argv w) (files w) s2 tr)
        end
    end.
Proof.
  intros H. unfold text_to_speech. rewrite H. cbn [negb].
  unfold gTTS, save, bind, emit, call_service, write_file, ret; cbn.
  destruct (gtts_construct text "en" (service w)) as [[[]|e] s1]; cbn; [|done].
  destruct (gtts_stream text "en" s1) as [[audio|e] s2]; cbn;
    rewrite <- ?app_assoc; cbn; [|done].
  destruct (os_writable (default "output.mp3" o)); done.
Qed.

(** After a call the files are those before it, but for the output path
    when the call got as far as writing. *)
Lemma text_to_speech_files text p w :
  files (text_to_speech text (Some p) w).2 = files w \/
  exists audio, files (text_to_speech text (Some p) w).2 = <[p := audio]> (files w).
Proof.
  destruct (truthy text) eqn:Ht.
  - rewrite text_to_speech_truthy by done. cbn.
    destruct (gtts_construct text "en" (service w)) as [[[]|e] s1]; cbn; auto.
    destruct (gtts_stream text "en" s1) as [[audio|e] s2]; cbn; auto.
    destruct (os_writable p); cbn; eauto.
  - rewrite text_to_speech_falsy by done. auto.
Qed.

(** A call that returns has passed the check, got its audio and written it. *)
Lemma text_to_speech_returns text o w v w' :
  text_to_speech text o w = (Ok v, w') ->
  truthy text = true /\ v = PyBool true /\
  os_writable (default "output.mp3" o) = true /\
  exists audio s2,
    synthesize text "en" (service w) = (Ok audio, s2) /\
    w' = mkWorld (argv w) (<[default "output.mp3" o := audio]> (files w)) s2
           (trace w ++ [GttsNew text "en";
                        GttsSave (Tts text "en") (default "output.mp3" o)]).
Proof.
  destruct (truthy text) eqn:Ht.
  - rewrite text_to_speech_truthy by done. unfold synthesize. cbn.
    destruct (gtts_construct text "en" (service w)) as [[[]|e] s1]; [|done].
    destruct (gtts_stream text "en" s1) as [[audio|e] s2]; [|done].
    destruct (os_writable (default "output.mp3" o)); [|done].
    intros [= <- <-]. repeat split. by exists audio, s2.
  - rewrite text_to_speech_falsy by done. done.
Qed.

(** ** The claims about the Converter *)

(** C1: for every output path (given or omitted), calling the Converter
    with the empty string fails with the error
    [ValueError("Text cannot be empty")], and the world is left as it was:
    the trace has no call of the gtts package, no file is created or
    changed. *)
Theorem empty_text_invalid_input (output_filename : option string) w :
  text_to_speech (PyStr "") output_filename w
  = (Raise (ValueError "Text cannot be empty"), w).
Proof. by apply text_to_speech_falsy. Qed.

(** C2 (amended): for a non-empty string [s] and a writable path [p],
    when the synthesis engine succeeds, the Converter returns [True] and
    the file at [p] holds exactly the byte stream the engine returned; its
    size is greater than 0 exactly when that stream is not empty, which
    the Converter does not check. *)
Theorem nonempty_text_writes_engine_stream (s p : string) w audio s2 :
  s <> "" ->
  os_writable p = true ->
  synthesize (PyStr s) "en" (service w) = (Ok audio, s2) ->
  exists w',
    text_to_speech (PyStr s) (Some p) w = (Ok (PyBool true), w') /\
    files w' !! p = Some audio /\
    ((0 < length audio)%nat <-> audio <> []).
Proof.
  intros Hs Hp Hsyn.
  assert (truthy (PyStr s) = true) as Ht.
  { cbn. apply negb_true_iff, String.eqb_neq, Hs. }
  rewrite text_to_speech_truthy by done. cbn.
  unfold synthesize in Hsyn.
  destruct (gtts_construct (PyStr s) "en" (service w)) as [[[]|e] s1]; [|done].
  rewrite Hsyn, Hp. eexists; split; [done|]. cbn. split.
  - apply lookup_insert_eq.
  - destruct audio; cbn; split; (done || lia).
Qed.

(** C3: call the Converter twice with the same text and the same path.
    When the second call returns, the files are those of before the first
    call with the audio of the second call at the path: the same files as
    the second call alone leaves, whatever the first call wrote. *)
Theorem second_call_overwrites text (p : string) w v :
  let w1 := (text_to_speech text (Some p) w).2 in
  forall w2,
  text_to_speech text (Some p) w1 = (Ok v, w2) ->
  exists audio,
    (synthesize text "en" (service w1)).1 = Ok audio /\
    files w2 !! p = Some audio /\
    files w2 = <[p := audio]> (files w) /\
    files w2 = files (text_to_speech text (Some p) (set_service (service w1) w)).2.
Proof.
  intros w1 w2 H2.
  destruct (text_to_speech_returns _ _ _ _ _ H2)
    as (Ht & _ & Hp & audio & s2 & Hsyn & ->).
  cbn [default from_option id files] in *.
  exists audio. rewrite Hsyn. split; [done|].
  assert (<[p := audio]> (files w1) = <[p := audio]> (files w)) as ->.
  { subst w1. destruct (text_to_speech_files text p w) as [->|[a ->]]; [done|].
    apply insert_insert_eq. }
  split; [apply lookup_insert_eq|]. split; [done|].
  rewrite text_to_speech_truthy by done. cbn.
  unfold synthesize in Hsyn.
  destruct (gtts_construct text "en" (service w1)) as [[[]|e] s1]; [|done].
  rewrite Hsyn, Hp. done.
Qed.

(** C5: whenever the Converter returns, the value is [True], whatever the
    text and the path; no other value, [False] included, is ever
    returned. *)
Theorem returns_only_true text (o : option string) w v w' :
  text_to_speech text o w = (Ok v, w') -> v = PyBool true.
Proof. intros H. by destruct (text_to_speech_returns _ _ _ _ _ H) as (_ & -> & _). Qed.

(** C6: every call the Converter makes into the gtts package carries the
    language code 'en', and a text that passes the check leads to the
    call [gTTS(text=text, lang='en')]; the Converter has no parameter for
    a language. *)
Theorem language_is_english text (o : option string) w :
  exists evs,
    trace (text_to_speech text o w).2 = trace w ++ evs /\
    Forall (eq "en") (engine_langs evs) /\
    (if truthy text then head evs = Some (GttsNew text "en") else evs = []).
Proof.
  destruct (truthy text) eqn:Ht.
  - rewrite text_to_speech_truthy by done. cbn.
    destruct (gtts_construct text "en" (service w)) as [[[]|e] s1]; cbn.
    + exists [GttsNew text "en"; GttsSave (Tts text "en") (default "output.mp3" o)].
      split; [|split; [repeat constructor | done]].
      destruct (gtts_stream text "en" s1) as [[audio|e] s2]; [|done].
      by destruct (os_writable _).
    + exists [GttsNew text "en"]. split; [done|]. split; [repeat constructor | done].
  - rewrite text_to_speech_falsy by done. exists []. cbn.
    rewrite app_nil_r. by repeat split.
Qed.

(** C9: the validation error (the [ValueError] of the Converter, raised
    with the world untouched) occurs exactly when the text is falsy; every
    truthy text reaches the gtts package, and every string with at least
    one character, a single space included, is truthy. *)
Theorem validation_error_iff_falsy text (o : option string) w :
  (text_to_speech text o w = (Raise (ValueError "Text cannot be empty"), w)
   <-> truthy text = false) /\
  (truthy text = true -> synthesis_attempted text o w) /\
  (forall c s, text = PyStr (String c s) -> synthesis_attempted text o w).
Proof.
  assert (truthy text = true -> synthesis_attempted text o w) as Hrun.
  { intros Ht. unfold synthesis_attempted.
    rewrite text_to_speech_truthy by done. cbn.
    destruct (gtts_construct text "en" (service w)) as [[[]|e] s1]; cbn.
    - exists [GttsSave (Tts text "en") (default "output.mp3" o)].
      destruct (gtts_stream text "en" s1) as [[audio|e] s2]; [|done].
      by destruct (os_writable _).
    - by exists []. }
  split; [|split; [done|]].
  - split; [|apply text_to_speech_falsy].
    destruct (truthy text) eqn:Ht; [|done].
    intros Heq. destruct (Hrun eq_refl) as [evs Hevs].
    rewrite Heq in Hevs. cbn in Hevs.
    apply (f_equal length) in Hevs. rewrite length_app in Hevs. cbn in Hevs. lia.
  - intros c s ->. by apply Hrun.
Qed.

(** ** Running [main] *)

Lemma namespace_unsupplied acts (seen : list (string * string)) (d : string) :
  supplied seen d = false ->
  namespace_of acts seen !! d = defaults acts !! d.
Proof.
  unfold namespace_of. generalize (defaults acts) as m.
  induction seen as [|[k v] seen IH]; intros m Hs; [done|].
  cbn in Hs. apply orb_false_iff in Hs as [Hk Hs].
  apply String.eqb_neq in Hk. cbn. rewrite IH by done.
  by apply lookup_insert_ne.
Qed.

Lemma namespace_is_some acts (seen : list (string * string)) (d : string) :
  is_Some (defaults acts !! d) \/ supplied seen d = true ->
  is_Some (namespace_of acts seen !! d).
Proof.
  unfold namespace_of. generalize (defaults acts) as m.
  induction seen as [|[k v] seen IH]; intros m [Hm|Hs]; cbn; try done.
  - apply IH. left. destruct (decide (k = d)) as [->|Hne].
    + rewrite lookup_insert_eq. eauto.
    + by rewrite lookup_insert_ne.
  - cbn in Hs. apply IH. destruct (String.eqb_spec k d) as [->|Hne].
    + left. rewrite lookup_insert_eq. eauto.
    + by right.
Qed.

Lemma defaults_output : defaults (actions parser) !! "output" = Some "output.mp3".
Proof. reflexivity. Qed.

Lemma parse_args_world w args :
  (parse_args parser w).1 = Ok args -> (parse_args parser w).2 = w.
Proof.
  unfold parse_args. destruct (argparse_scan _ _) as [seen|e]; [|done].
  by destruct (forallb _ _).
Qed.

(** A successful parse: the command line supplied the text, and the
    namespace has both attributes. *)
Lemma parse_args_ok w args :
  (parse_args parser w).1 = Ok args ->
  exists seen,
    argparse_scan (actions parser) (argv w) = Ok seen /\
    supplied seen "text" = true /\
    args = namespace_of (actions parser) seen /\
    is_Some (args !! "text") /\ is_Some (args !! "output").
Proof.
  unfold parse_args. destruct (argparse_scan _ _) as [seen|e]; [|done].
  cbn [forallb actions parser]. cbn.
  destruct (supplied seen "text") eqn:Hs; [|done]. cbn. intros [= <-].
  exists seen. do 3 (split; [done|]). split.
  - apply namespace_is_some. by right.
  - apply namespace_is_some. left. exists "output.mp3". exact defaults_output.
Qed.

(** [main] after a successful parse, as one equation. *)
Lemma main_parsed w args (t out : string) :
  (parse_args parser w).1 = Ok args ->
  args !! "text" = Some t ->
  args !! "output" = Some out ->
  main w =
    match text_to_speech (PyStr t) (Some out)
            (set_trace (trace w ++ [Stdout ("Converting text to speech: '" +:+ t +:+ "'")]) w)
    with
    | (Ok _, w2) =>
        (Ok tt, set_trace (trace w2 ++ [Stdout ("Speech saved to '" +:+ out +:+ "'")]) w2)
    | (Raise e, w2) => (Raise e, w2)
    end.
Proof.
  intros Hp Ht Ho. pose proof (parse_args_world w args Hp) as Hw.
  destruct (parse_args parser w) as [r w0] eqn:Hpa. cbn in Hp, Hw. subst.
  unfold main. rewrite (bind_ok _ _ _ _ _ Hpa).
  unfold getattr, print. rewrite Ht, Ho.
  unfold bind at 1. cbn [ret].
  unfold bind at 1. cbn [emit].
  unfold bind at 1. cbn [ret].
  unfold bind at 1. cbn [ret].
  unfold bind at 1.
  by destruct (text_to_speech _ _ _) as [[v|e] w2].
Qed.

(** A run of [main] that returns went through a successful parse. *)
Lemma main_returns_parsed w w' :
  main w = (Ok tt, w') ->
  exists args t out,
    (parse_args parser w).1 = Ok args /\
    args !! "text" = Some t /\ args !! "output" = Some out.
Proof.
  intros Hm. destruct (parse_args parser w) as [[args|e] w0] eqn:Hpa.
  - destruct (parse_args_ok w args) as (seen & _ & _ & _ & [t Ht] & [out Ho]).
    { by rewrite Hpa. }
    by exists args, t, out.
  - unfold main in Hm. by rewrite (bind_raise _ _ _ _ _ Hpa) in Hm.
Qed.

(** ** The claims about the command line *)

(** C4: an exception raised inside the calls into the gtts package (by
    the service, or by the write of the file) comes out of the Converter
    as the same exception with the world as the engine left it, and out
    of [main] likewise: no handler, no clean-up, no further message.  The
    process then ends by the interpreter's report of the uncaught
    exception, with exit status 1. *)
Theorem engine_error_propagates :
  (forall text (o : option string) w e w',
     truthy text = true ->
     engine_calls text "en" (default "output.mp3" o) w = (Raise e, w') ->
     text_to_speech text o w = (Raise e, w')) /\
  (forall w args (t out : string) e w',
     (parse_args parser w).1 = Ok args ->
     args !! "text" = Some t ->
     args !! "output" = Some out ->
     t <> "" ->
     engine_calls (PyStr t) "en" out
       (set_trace (trace w ++ [Stdout ("Converting text to speech: '" +:+ t +:+ "'")]) w)
       = (Raise e, w') ->
     is_system_exit e = false ->
     main w = (Raise e, w') /\
     script w = (1, set_trace (trace w' ++ [Traceback e]) w') /\
     (script w).1 <> 0).
Proof.
  assert (forall text (o : option string) w e w',
     truthy text = true ->
     engine_calls text "en" (default "output.mp3" o) w = (Raise e, w') ->
     text_to_speech text o w = (Raise e, w')) as Hconv.
  { intros text o w e w' Ht. unfold text_to_speech, engine_calls.
    rewrite Ht. cbn [negb].
    destruct (gTTS text "en" w) as [[t|e1] w1] eqn:Hg.
    - rewrite !(bind_ok _ _ _ _ _ Hg).
      destruct (save t (default "output.mp3" o) w1) as [[[]|e2] w2] eqn:Hs; [done|].
      rewrite (bind_raise _ _ _ _ _ Hs). by intros [= -> ->].
    - rewrite !(bind_raise _ _ _ _ _ Hg). by intros [= -> ->]. }
  split; [exact Hconv|].
  intros w args t out e w' Hpa Ht Ho Hne Hrun Hexit.
  assert (main w = (Raise e, w')) as Hm.
  { rewrite (main_parsed w args t out) by done.
    rewrite (Hconv (PyStr t) (Some out) _ e w'); [done| |done].
    cbn. by apply negb_true_iff, String.eqb_neq. }
  split; [done|]. unfold script. rewrite Hm, Hexit. by split.
Qed.

(** C7: an omitted output path is 'output.mp3'.  The Converter called
    without path behaves as when called with 'output.mp3' and, when it
    returns, has written that file; the parser declares 'output.mp3' as
    the default of [-o/--output]; and a command line that does not supply
    the option makes a returning [main] write 'output.mp3' and name it in
    its last message. *)
Theorem default_output_path :
  (forall text w,
     text_to_speech text None w = text_to_speech text (Some "output.mp3") w) /\
  (forall text w v w',
     text_to_speech text None w = (Ok v, w') ->
     exists audio, files w' = <["output.mp3" := audio]> (files w)) /\
  default_value <$> List.find (fun a => String.eqb (dest a) "output") (actions parser)
    = Some (Some "output.mp3") /\
  (forall w seen w',
     argparse_scan (actions parser) (argv w) = Ok seen ->
     supplied seen "output" = false ->
     main w = (Ok tt, w') ->
     exists audio,
       files w' = <["output.mp3" := audio]> (files w) /\
       last (trace w') = Some (Stdout "Speech saved to 'output.mp3'")).
Proof.
  split; [done|]. split; [|split; [done|]].
  - intros text w v w' H.
    destruct (text_to_speech_returns _ _ _ _ _ H) as (_ & _ & _ & audio & s2 & _ & ->).
    by exists audio.
  - intros w seen w' Hscan Hsup Hm.
    destruct (main_returns_parsed w w' Hm) as (args & t & out & Hpa & Ht & Ho).
    destruct (parse_args_ok w args Hpa) as (seen' & Hscan' & _ & -> & _).
    rewrite Hscan in Hscan'. injection Hscan' as <-.
    rewrite namespace_unsupplied, defaults_output in Ho by done.
    injection Ho as <-.
    rewrite (main_parsed w _ t "output.mp3") in Hm by (try done; by rewrite namespace_unsupplied).
    destruct (text_to_speech _ _ _) as [[v|e] w2] eqn:Hrun; [|done].
    injection Hm as <-.
    destruct (text_to_speech_returns _ _ _ _ _ Hrun) as (_ & _ & _ & audio & s2 & _ & ->).
    exists audio. cbn. split; [done|]. by rewrite last_snoc.
Qed.

(** C8: a run of [main] that returns has printed, in this order, the start
    message with the text, then made the Converter's calls into the gtts
    package, then printed the completion message with the output path:
    these four events and no other. *)
Theorem main_prints_start_then_completion w w' :
  main w = (Ok tt, w') ->
  exists args (text output : string),
    (parse_args parser w).1 = Ok args /\
    args !! "text" = Some text /\
    args !! "output" = Some output /\
    trace w' = trace w ++
      [ Stdout ("Converting text to speech: '" +:+ text +:+ "'");
        GttsNew (PyStr text) "en";
        GttsSave (Tts (PyStr text) "en") output;
        Stdout ("Speech saved to '" +:+ output +:+ "'") ].
Proof.
  intros Hm.
  destruct (main_returns_parsed w w' Hm) as (args & t & out & Hpa & Ht & Ho).
  exists args, t, out. do 3 (split; [done|]).
  rewrite (main_parsed w args t out) in Hm by done.
  destruct (text_to_speech _ _ _) as [[v|e] w2] eqn:Hrun; [|done].
  injection Hm as <-.
  destruct (text_to_speech_returns _ _ _ _ _ Hrun) as (_ & _ & _ & audio & s2 & _ & ->).
  cbn. by rewrite <- !app_assoc.
Qed.

(** C10: when the parsed text is the empty string, [main] has printed the
    start message and nothing else by the time the Converter's check
    raises; the exception leaves [main] and the process ends with the
    report of the uncaught [ValueError] and exit status 1. *)
Theorem start_message_precedes_validation w args :
  (parse_args parser w).1 = Ok args ->
  args !! "text" = Some "" ->
  main w = (Raise (ValueError "Text cannot be empty"),
            set_trace (trace w ++ [Stdout "Converting text to speech: ''"]) w) /\
  script w = (1, set_trace (trace w ++ [Stdout "Converting text to speech: ''";
                                        Traceback (ValueError "Text cannot be empty")]) w).
Proof.
  intros Hpa Ht.
  destruct (parse_args_ok w args Hpa) as (_ & _ & _ & _ & _ & [out Ho]).
  assert (main w = (Raise (ValueError "Text cannot be empty"),
            set_trace (trace w ++ [Stdout "Converting text to speech: ''"]) w)) as Hm.
  { rewrite (main_parsed w args "" out) by done.
    by rewrite text_to_speech_falsy. }
  split; [done|]. unfold script. rewrite Hm. cbn.
  by rewrite <- app_assoc.
Qed.

End Properties.

(** * Further properties of the Converter, the command line and the tests *)

Section Footprint.

Context `{P : Platform}.

Implicit Types (text : pyval) (w : World) (e : exn).

(** ** The Converter *)

(** The events of a call, for the proofs below. *)
Lemma text_to_speech_events text (o : option string) w :
  exists evs,
    trace (text_to_speech text o w).2 = trace w ++ evs /\
    evs `prefix_of` [GttsNew text "en";
                     GttsSave (Tts text "en") (default "output.mp3" o)] /\
    stdout_lines evs = [].
Proof.
  destruct (truthy text) eqn:Ht.
  - rewrite text_to_speech_truthy by done. cbn.
    destruct (gtts_construct text "en" (service w)) as [[[]|e] s1]; cbn.
    + exists [GttsNew text "en"; GttsSave (Tts text "en") (default "output.mp3" o)].
      split; [|done].
      destruct (gtts_stream text "en" s1) as [[audio|e] s2]; [|done].
      by destruct (os_writable _).
    + exists [GttsNew text "en"]. split; [done|]. split; [|done]. by eexists [_].
  - rewrite text_to_speech_falsy by done. exists []. rewrite app_nil_r.
    split; [done|]. split; [apply prefix_nil | done].
Qed.

(** X1: what a call of the Converter adds to the trace is an initial part
    of the two calls [gTTS(text, 'en')], [save(path)]: it prints nothing,
    makes neither call twice, and hands over the caller's text and path
    unchanged. *)
Theorem converter_events text (o : option string) w :
  exists evs,
    trace (text_to_speech text o w).2 = trace w ++ evs /\
    evs `prefix_of` [GttsNew text "en";
                     GttsSave (Tts text "en") (default "output.mp3" o)] /\
    stdout_lines evs = [].
Proof. apply text_to_speech_events. Qed.

(** ** The command line *)

Lemma insert_all_unsupplied (m : gmap string string)
    (seen : list (string * string)) (d : string) :
  supplied seen d = false ->
  foldl (fun ns kv => <[kv.1 := kv.2]> ns) m seen !! d = m !! d.
Proof.
  revert m. induction seen as [|[k v] seen IH]; intros m Hs; [done|].
  cbn in Hs. apply orb_false_iff in Hs as [Hk Hs].
  apply String.eqb_neq in Hk. cbn. rewrite IH by done.
  by apply lookup_insert_ne.
Qed.

(** The value of an attribute is the last one the command line supplied. *)
Lemma namespace_last_supplied acts (seen1 seen2 : list (string * string))
    (d v : string) :
  supplied seen2 d = false ->
  namespace_of acts (seen1 ++ (d, v) :: seen2) !! d = Some v.
Proof.
  intros Hs. unfold namespace_of. rewrite foldl_app. cbn.
  rewrite insert_all_unsupplied by done. apply lookup_insert_eq.
Qed.

Lemma parse_args_raises w e :
  (parse_args parser w).1 = Raise e ->
  main w = (Raise e, (parse_args parser w).2).
Proof.
  intros He.
  destruct (parse_args parser w) as [r w0] eqn:Hpa. cbn in He. subst.
  unfold main. by rewrite (bind_raise _ _ _ _ _ Hpa).
Qed.

(** X3: when argparse ends the run itself while matching the tokens (a
    usage error, [-h]), [main] lets that exception through and adds
    nothing of its own: the trace grows by what argparse wrote on stdout
    (the help text of [-h]) and by nothing else, so no start line, no
    call into the gtts package; no file is written and the service is
    not touched. *)
Theorem argparse_exit_ends_main w e :
  argparse_scan (actions parser) (argv w) = Raise e ->
  exists w',
    main w = (Raise e, w') /\
    trace w' = trace w ++ map Stdout (argparse_stdout (actions parser) (argv w)) /\
    files w' = files w /\ service w' = service w /\ argv w' = argv w.
Proof.
  intros Hscan. eexists. split.
  - rewrite (parse_args_raises w e); unfold parse_args; by rewrite Hscan.
  - done.
Qed.


(** X5: the lines [main] prints, by outcome.  If the parse fails, none of
    its own: the run ends in the world argparse left, whose only new
    output is what argparse itself wrote.  Otherwise the start line with
    the text; and the completion line with the output path follows
    exactly when [main] returns: a run that ends in an exception never
    reports that the speech was saved. *)
Theorem main_stdout_by_outcome w (r : result unit) w' :
  main w = (r, w') ->
  exists evs,
    trace w' = trace w ++ evs /\
    match (parse_args parser w).1 with
    | Raise _ =>
        w' = (parse_args parser w).2 /\
        stdout_lines evs =
          match argparse_scan (actions parser) (argv w) with
          | Raise _ => argparse_stdout (actions parser) (argv w)
          | Ok _ => []
          end
    | Ok args =>
        exists t out,
          args !! "text" = Some t /\ args !! "output" = Some out /\
          stdout_lines evs =
            ("Converting text to speech: '" +:+ t +:+ "'")
              :: match r with
                 | Ok _ => ["Speech saved to '" +:+ out +:+ "'"]
                 | Raise _ => []
                 end
    end.
Proof.
  intros Hm. destruct ((parse_args parser w).1) as [args|e] eqn:Hpa.
  - destruct (parse_args_ok w args Hpa) as (_ & _ & _ & _ & [t Ht] & [out Ho]).
    rewrite (main_parsed w args t out) in Hm by done.
    destruct (text_to_speech_events (PyStr t) (Some out)
      (set_trace (trace w ++ [Stdout ("Converting text to speech: '" +:+ t +:+ "'")]) w))
      as (evs & Htr & _ & Hlines).
    destruct (text_to_speech _ _ _) as [[v|e] w2]; injection Hm as <- <-;
      cbn in Htr |- *.
    + exists (Stdout ("Converting text to speech: '" +:+ t +:+ "'") :: evs
              ++ [Stdout ("Speech saved to '" +:+ out +:+ "'")]).
      split.
      * rewrite Htr, <- !app_assoc. done.
      * exists t, out. do 2 (split; [done|]).
        cbn. unfold stdout_lines in *. rewrite flat_map_app, Hlines. done.
    + exists (Stdout ("Converting text to speech: '" +:+ t +:+ "'") :: evs).
      split.
      * rewrite Htr, <- !app_assoc. done.
      * exists t, out. do 2 (split; [done|]).
        cbn. unfold stdout_lines in *. by rewrite Hlines.
  - rewrite (parse_args_raises w e Hpa) in Hm. injection Hm as <- <-.
    clear Hpa. unfold parse_args.
    destruct (argparse_scan _ _) as [seen|e'].
    + exists []. destruct (forallb _ _); by rewrite app_nil_r.
    + exists (map Stdout (argparse_stdout (actions parser) (argv w))).
      cbn. do 2 (split; [done|]).
      unfold stdout_lines.
      induction (argparse_stdout _ _) as [|l ls IH]; cbn; by rewrite ?IH.
Qed.

(** X7: an output path given on the command line replaces the default,
    the last one given winning: a returning [main] has written the audio
    at the path as given and names that path in its completion line. *)
Theorem explicit_output_overrides w (seen1 seen2 : list (string * string))
    (v : string) w' :
  argparse_scan (actions parser) (argv w) = Ok (seen1 ++ ("output", v) :: seen2) ->
  supplied seen2 "output" = false ->
  main w = (Ok tt, w') ->
  (exists audio, files w' = <[v := audio]> (files w)) /\
  last (trace w') = Some (Stdout ("Speech saved to '" +:+ v +:+ "'")).
Proof.
  intros Hscan Hs Hm.
  destruct (main_returns_parsed w w' Hm) as (args & t & out & Hpa & Ht & Ho).
  destruct (parse_args_ok w args Hpa) as (seen' & Hscan' & _ & -> & _).
  rewrite Hscan in Hscan'. injection Hscan' as <-.
  rewrite namespace_last_supplied in Ho by done. injection Ho as <-.
  rewrite (main_parsed w _ t v) in Hm
    by (try done; by apply namespace_last_supplied).
  destruct (text_to_speech _ _ _) as [[r|e] w2] eqn:Hrun; [|done].
  injection Hm as <-.
  destruct (text_to_speech_returns _ _ _ _ _ Hrun) as (_ & _ & _ & audio & s2 & _ & ->).
  cbn. split; [by exists audio|]. by rewrite last_snoc.
Qed.

End Footprint.

Section Tests.

Context `{P : Platform}.

Implicit Types (w : World) (e : exn).

(** ** The test functions *)

(** The shared body as one equation: the Converter's exception if it
    raises, an [AssertionError] if the file is missing or empty, else the
    file removed. *)
Lemma check_created_file_run (test_text output_file : string) w :
  check_created_file test_text output_file w =
    match text_to_speech (PyStr test_text) (Some output_file) w with
    | (Raise e, w1) => (Raise e, w1)
    | (Ok _, w1) =>
        match files w1 !! output_file with
        | Some (_ :: _) =>
            (Ok tt, set_files (delete output_file (files w1)) w1)
        | _ => (Raise (Exn "AssertionError" PyNone), w1)
        end
    end.
Proof.
  unfold check_created_file.
  destruct (text_to_speech _ _ w) as [[v|e] w1] eqn:Hrun.
  - rewrite (bind_ok _ _ _ _ _ Hrun).
    unfold bind, os_path_exists, os_path_getsize, os_remove, py_assert.
    destruct (files w1 !! output_file) as [[|b content]|] eqn:Hf; cbn;
      rewrite ?Hf; [done| |done].
    change (0 <? Z.of_nat (length (b :: content)))%Z with true.
    cbn. by rewrite Hf.
  - by rewrite (bind_raise _ _ _ _ _ Hrun).
Qed.

(** When the shared body passes and what it leaves. *)
Lemma check_created_file_passes (test_text output_file : string) w :
  truthy (PyStr test_text) = true ->
  forall w',
  check_created_file test_text output_file w = (Ok tt, w') <->
  os_writable output_file = true /\
  exists audio s2,
    synthesize (PyStr test_text) "en" (service w) = (Ok audio, s2) /\
    audio <> [] /\
    w' = mkWorld (argv w) (delete output_file (files w)) s2
           (trace w ++ [GttsNew (PyStr test_text) "en";
                        GttsSave (Tts (PyStr test_text) "en") output_file]).
Proof.
  intros Ht w'. rewrite check_created_file_run, text_to_speech_truthy by done.
  unfold synthesize. cbn.
  destruct (gtts_construct _ "en" (service w)) as [[[]|e] s1].
  2: { split; [done|]. by intros (_ & audio & s2 & ? & _). }
  destruct (gtts_stream _ "en" s1) as [[audio|e] s2].
  2: { split; [done|]. by intros (_ & audio & s2' & ? & _). }
  destruct (os_writable output_file).
  2: { split; [done|]. by intros [? _]. }
  cbn. rewrite lookup_insert_eq. destruct audio as [|b audio].
  - split; [done|]. intros (_ & audio & s2' & [= <- <-] & Hne & _). done.
  - unfold set_files. cbn. rewrite delete_insert_eq. split.
    + intros [= <-]. split; [done|]. by exists (b :: audio), s2.
    + intros (_ & audio' & s2' & [= <- <-] & _ & ->). done.
Qed.

(** X8: the empty-text test passes on every platform and needs none of
    it: the world after the test is the world before, so it makes no
    request to the speech service and touches no file. *)
Theorem empty_text_test_passes (issubclass : string -> string -> bool) w :
  issubclass "ValueError" "ValueError" = true ->
  test_text_to_speech_handles_empty_text issubclass w = (Ok tt, w).
Proof.
  intros Hsub. unfold test_text_to_speech_handles_empty_text, pytest_raises.
  rewrite text_to_speech_falsy by done. cbn. by rewrite Hsub.
Qed.



(** X11: a failing run of the unit test does no clean-up: it ends in the
    world the Converter left, so a file the Converter wrote stays. *)
Theorem creates_file_test_failure_skips_cleanup w e w' :
  test_text_to_speech_creates_file w = (Raise e, w') ->
  w' = (text_to_speech (PyStr "Hello, this is a test")
          (Some "test_output.mp3") w).2.
Proof.
  change (test_text_to_speech_creates_file w)
    with (check_created_file "Hello, this is a test" "test_output.mp3" w).
  rewrite check_created_file_run.
  destruct (text_to_speech _ _ w) as [[v|e1] w1]; cbn.
  - destruct (files w1 !! "test_output.mp3") as [[|b content]|];
      by intros [= _ <-].
  - by intros [= _ <-].
Qed.

(** X12: when the integration test passes, the service has answered its
    text with a stream that is not empty, the test has made exactly the
    two calls into the gtts package, and 'test_audio.mp3' is gone. *)
Theorem audio_test_passes w w' :
  test_audio_file_properties w = (Ok tt, w') ->
  (exists audio s2,
     synthesize (PyStr "Test audio generation") "en" (service w) = (Ok audio, s2) /\
     audio <> []) /\
  files w' = delete "test_audio.mp3" (files w) /\
  trace w' = trace w ++
    [GttsNew (PyStr "Test audio generation") "en";
     GttsSave (Tts (PyStr "Test audio generation") "en") "test_audio.mp3"].
Proof.
  change (test_audio_file_properties w)
    with (check_created_file "Test audio generation" "test_audio.mp3" w).
  intros Hrun.
  apply check_created_file_passes in Hrun as (_ & audio & s2 & Hs & Hne & ->);
    [|done].
  split; [by exists audio, s2 | done].
Qed.

(** X13: when the service answers with an empty stream, the integration
    test fails at its size assertion, and the empty 'test_audio.mp3' it
    caused stays on disk. *)
Theorem audio_test_empty_stream w s2 :
  os_writable "test_audio.mp3" = true ->
  synthesize (PyStr "Test audio generation") "en" (service w) = (Ok [], s2) ->
  exists w',
    test_audio_file_properties w = (Raise (Exn "AssertionError" PyNone), w') /\
    files w' !! "test_audio.mp3" = Some [].
Proof.
  change (test_audio_file_properties w)
    with (check_created_file "Test audio generation" "test_audio.mp3" w).
  intros Hw Hs. rewrite check_created_file_run, text_to_speech_truthy by done.
  unfold synthesize in Hs. cbn.
  destruct (gtts_construct _ "en" (service w)) as [[[]|e] s1]; [|done].
  rewrite Hs, Hw. cbn. rewrite lookup_insert_eq.
  eexists. split; [done|]. cbn. apply lookup_insert_eq.
Qed.

End Tests.

(** * The program and the theorems at work on the reference platform *)

(** Scenario 2 of the specification: [convert("")]. *)
Example scenario_empty_text :
  text_to_speech (P := Demo.platform) (PyStr "") None Demo.fresh
  = (Raise (ValueError "Text cannot be empty"), Demo.fresh).
Proof. reflexivity. Qed.

(** A single space passes the check; it is the service that refuses it. *)
Example scenario_single_space :
  (text_to_speech (P := Demo.platform) (PyStr " ") None Demo.fresh).1
  = Raise (Exn "AssertionError" (PyStr "No text to send to TTS API")).
Proof. reflexivity. Qed.

(** Scenario 1: the file exists afterwards and is not empty. *)
Example scenario_creates_file :
  length <$> files (text_to_speech (P := Demo.platform)
                      (PyStr "Hello, this is a test") (Some "test_output.mp3")
                      Demo.fresh).2 !! "test_output.mp3"
  = Some 24%nat.
Proof. reflexivity. Qed.

(** [-h] ends the process with status 0 once argparse has written the
    help text; [main] prints nothing of its own. *)
Example scenario_help :
  script (P := Demo.platform) (Demo.world ["-h"] ∅ 0)
  = (0, set_trace (map Stdout Demo.help_text) (Demo.world ["-h"] ∅ 0)).
Proof. reflexivity. Qed.

(** A command line without text ends with the usage error, status 2. *)
Example scenario_missing_text :
  script (P := Demo.platform) (Demo.world [] ∅ 0) = (2, Demo.world [] ∅ 0).
Proof. reflexivity. Qed.

Lemma nonempty_text_writes_engine_stream_witness :
  exists w',
    text_to_speech (P := Demo.platform) (PyStr "Hello, this is a test")
      (Some "test_output.mp3") Demo.fresh = (Ok (PyBool true), w') /\
    files w' !! "test_output.mp3"
      = Some (Byte.xff :: Byte.xfb :: Byte.x00
                :: list_byte_of_string "Hello, this is a test") /\
    ((0 < length (Byte.xff :: Byte.xfb :: Byte.x00
                    :: list_byte_of_string "Hello, this is a test"))%nat
     <-> Byte.xff :: Byte.xfb :: Byte.x00
           :: list_byte_of_string "Hello, this is a test" <> []).
Proof.
  apply (nonempty_text_writes_engine_stream (P := Demo.platform)
           "Hello, this is a test" "test_output.mp3" Demo.fresh _ 1%nat).
  - discriminate.
  - reflexivity.
  - reflexivity.
Defined.

(** The claim C2 as first stated fails where the engine succeeds with an
    empty stream: the text is not empty, the path is writable, the
    Converter returns [True], and the file it leaves has no byte. *)
Lemma nonempty_text_empty_file_counterexample :
  "hi" <> "" /\
  os_writable (Platform := Demo.mute) "out.mp3" = true /\
  synthesize (P := Demo.mute) (PyStr "hi") "en" (service (Demo.mute_world ∅))
    = (Ok [], tt) /\
  (text_to_speech (P := Demo.mute) (PyStr "hi") (Some "out.mp3")
     (Demo.mute_world ∅)).1 = Ok (PyBool true) /\
  ~ (exists content,
       files (text_to_speech (P := Demo.mute) (PyStr "hi") (Some "out.mp3")
                (Demo.mute_world ∅)).2 !! "out.mp3" = Some content /\
       (0 < length content)%nat).
Proof.
  split; [discriminate|]. do 3 (split; [reflexivity|]).
  intros (content & Hc & Hlen).
  vm_compute in Hc. injection Hc as <-. cbn in Hlen. lia.
Qed.

Lemma second_call_overwrites_witness :
  exists w2 audio,
    text_to_speech (P := Demo.platform) (PyStr "hi") (Some "a.mp3")
      (text_to_speech (PyStr "hi") (Some "a.mp3") Demo.fresh).2
      = (Ok (PyBool true), w2) /\
    files w2 !! "a.mp3" = Some audio /\
    files w2 = <["a.mp3" := audio]> (files Demo.fresh).
Proof.
  eexists.
  refine ((fun H =>
             match second_call_overwrites (P := Demo.platform)
                     (PyStr "hi") "a.mp3" Demo.fresh (PyBool true) _ H with
             | ex_intro _ audio (conj _ (conj Hl (conj Hf _))) =>
                 ex_intro _ audio (conj H (conj Hl Hf))
             end) _).
  vm_compute. reflexivity.
Defined.

Lemma engine_error_propagates_witness :
  (text_to_speech (P := Demo.platform) (PyStr "hi") None Demo.exhausted).1
    = Raise Demo.quota_error /\
  (script (P := Demo.platform) Demo.exhausted).1 = 1.
Proof.
  split.
  - refine (f_equal fst
              (proj1 (engine_error_propagates (P := Demo.platform))
                 (PyStr "hi") None Demo.exhausted Demo.quota_error _ _ _)).
    + reflexivity.
    + vm_compute. reflexivity.
  - refine (f_equal fst
              (proj1 (proj2 (proj2 (engine_error_propagates (P := Demo.platform))
                 Demo.exhausted _ "hi" "output.mp3" Demo.quota_error _ _ _ _ _ _ _)))).
    + vm_compute. reflexivity.
    + reflexivity.
    + reflexivity.
    + discriminate.
    + vm_compute. reflexivity.
    + reflexivity.
Defined.

Lemma returns_only_true_witness :
  exists v w',
    text_to_speech (P := Demo.platform) (PyStr "hi") None Demo.fresh = (Ok v, w') /\
    v = PyBool true.
Proof.
  eexists _, _.
  refine ((fun H => conj H (returns_only_true (P := Demo.platform) _ _ _ _ _ H)) _).
  vm_compute. reflexivity.
Defined.

Lemma default_output_path_witness :
  exists audio,
    files (main (P := Demo.platform) (Demo.world ["hi"] ∅ 0)).2
      = <["output.mp3" := audio]> ∅ /\
    last (trace (main (P := Demo.platform) (Demo.world ["hi"] ∅ 0)).2)
      = Some (Stdout "Speech saved to 'output.mp3'").
Proof.
  refine (proj2 (proj2 (proj2 (default_output_path (P := Demo.platform))))
            (Demo.world ["hi"] ∅ 0) _ _ _ _ _).
  - reflexivity.
  - reflexivity.
  - vm_compute. reflexivity.
Defined.

Lemma main_prints_start_then_completion_witness :
  exists args (text output : string),
    (parse_args (P := Demo.platform) parser
       (Demo.world ["hi"; "-o"; "out.mp3"] ∅ 0)).1 = Ok args /\
    args !! "text" = Some text /\
    args !! "output" = Some output /\
    trace (main (P := Demo.platform) (Demo.world ["hi"; "-o"; "out.mp3"] ∅ 0)).2
    = [] ++
      [ Stdout ("Converting text to speech: '" +:+ text +:+ "'");
        GttsNew (PyStr text) "en";
        GttsSave (Tts (PyStr text) "en") output;
        Stdout ("Speech saved to '" +:+ output +:+ "'") ].
Proof.
  apply (main_prints_start_then_completion (P := Demo.platform)
           (Demo.world ["hi"; "-o"; "out.mp3"] ∅ 0)).
  vm_compute. reflexivity.
Defined.

Lemma validation_error_iff_falsy_witness :
  synthesis_attempted (P := Demo.platform) (PyStr " ") None Demo.fresh /\
  text_to_speech (P := Demo.platform) PyNone None Demo.fresh
    = (Raise (ValueError "Text cannot be empty"), Demo.fresh).
Proof.
  split.
  - apply (proj2 (proj2 (validation_error_iff_falsy (P := Demo.platform)
                           (PyStr " ") None Demo.fresh)) " "%char "").
    reflexivity.
  - apply (proj1 (validation_error_iff_falsy (P := Demo.platform)
                    PyNone None Demo.fresh)).
    reflexivity.
Defined.

Lemma start_message_precedes_validation_witness :
  script (P := Demo.platform) (Demo.world [""] ∅ 0)
  = (1, set_trace [Stdout "Converting text to speech: ''";
                   Traceback (ValueError "Text cannot be empty")]
          (Demo.world [""] ∅ 0)).
Proof.
  refine (proj2 (start_message_precedes_validation (P := Demo.platform)
                   (Demo.world [""] ∅ 0) _ _ _)).
  - vm_compute. reflexivity.
  - reflexivity.
Defined.

(** ** The further properties at work *)

Lemma argparse_exit_ends_main_witness :
  exists w',
    main (P := Demo.platform) (Demo.world ["-h"] ∅ 0) = (Raise (SystemExit 0), w') /\
    trace w' = trace (Demo.world ["-h"] ∅ 0)
               ++ map Stdout (argparse_stdout (Platform := Demo.platform)
                                (actions parser) ["-h"]) /\
    files w' = files (Demo.world ["-h"] ∅ 0) /\
    service w' = service (Demo.world ["-h"] ∅ 0) /\
    argv w' = argv (Demo.world ["-h"] ∅ 0).
Proof.
  apply (argparse_exit_ends_main (P := Demo.platform)
           (Demo.world ["-h"] ∅ 0) (SystemExit 0)).
  reflexivity.
Defined.


Lemma main_stdout_by_outcome_witness :
  (exists evs,
     trace (main (P := Demo.platform) Demo.exhausted).2 = [] ++ evs /\
     exists t out : string,
       namespace_of (actions parser) [("text", "hi")] !! "text" = Some t /\
       namespace_of (actions parser) [("text", "hi")] !! "output" = Some out /\
       stdout_lines evs = [ "Converting text to speech: '" +:+ t +:+ "'" ]) /\
  (exists evs,
     trace (main (P := Demo.platform) (Demo.world ["-h"] ∅ 0)).2 = [] ++ evs /\
     (main (P := Demo.platform) (Demo.world ["-h"] ∅ 0)).2
       = (parse_args (P := Demo.platform) parser (Demo.world ["-h"] ∅ 0)).2 /\
     stdout_lines evs = Demo.help_text).
Proof.
  split.
  - refine (main_stdout_by_outcome (P := Demo.platform) Demo.exhausted
              (Raise Demo.quota_error) (main Demo.exhausted).2 _).
    vm_compute. reflexivity.
  - refine (main_stdout_by_outcome (P := Demo.platform) (Demo.world ["-h"] ∅ 0)
              (Raise (SystemExit 0)) (main (Demo.world ["-h"] ∅ 0)).2 _).
    vm_compute. reflexivity.
Defined.

Lemma explicit_output_overrides_witness :
  (exists audio,
     files (main (P := Demo.platform) (Demo.world ["hi"; "-o"; "out.mp3"] ∅ 0)).2
     = <["out.mp3" := audio]> ∅) /\
  last (trace (main (P := Demo.platform)
                 (Demo.world ["hi"; "-o"; "out.mp3"] ∅ 0)).2)
    = Some (Stdout "Speech saved to 'out.mp3'").
Proof.
  refine (explicit_output_overrides (P := Demo.platform)
            (Demo.world ["hi"; "-o"; "out.mp3"] ∅ 0)
            [("text", "hi")] [] "out.mp3" _ _ _ _).
  - reflexivity.
  - reflexivity.
  - vm_compute. reflexivity.
Defined.

Lemma empty_text_test_passes_witness :
  test_text_to_speech_handles_empty_text (P := Demo.platform)
    Demo.same_class Demo.exhausted
  = (Ok tt, Demo.exhausted).
Proof.
  apply (empty_text_test_passes (P := Demo.platform) Demo.same_class Demo.exhausted).
  reflexivity.
Defined.



Lemma creates_file_test_failure_skips_cleanup_witness :
  (test_text_to_speech_creates_file (P := Demo.mute) (Demo.mute_world ∅)).1
    = Raise (Exn "AssertionError" PyNone) /\
  (test_text_to_speech_creates_file (P := Demo.mute) (Demo.mute_world ∅)).2
    = (text_to_speech (P := Demo.mute) (PyStr "Hello, this is a test")
         (Some "test_output.mp3") (Demo.mute_world ∅)).2 /\
  files (test_text_to_speech_creates_file (P := Demo.mute) (Demo.mute_world ∅)).2
    !! "test_output.mp3" = Some [].
Proof.
  split; [reflexivity|].
  refine ((fun H => conj H (eq_ind_r (fun x => files x !! "test_output.mp3" = Some [])
                                    eq_refl H))
            (creates_file_test_failure_skips_cleanup (P := Demo.mute)
               (Demo.mute_world ∅) (Exn "AssertionError" PyNone) _ _)).
  vm_compute. reflexivity.
Defined.

Lemma audio_test_passes_witness :
  files (test_audio_file_properties (P := Demo.platform) Demo.fresh).2
    = delete "test_audio.mp3" ∅ /\
  trace (test_audio_file_properties (P := Demo.platform) Demo.fresh).2
    = [] ++ [GttsNew (PyStr "Test audio generation") "en";
             GttsSave (Tts (PyStr "Test audio generation") "en") "test_audio.mp3"].
Proof.
  refine (proj2 (audio_test_passes (P := Demo.platform) Demo.fresh _ _)).
  vm_compute. reflexivity.
Defined.

Lemma audio_test_empty_stream_witness :
  exists w',
    test_audio_file_properties (P := Demo.mute) (Demo.mute_world ∅)
      = (Raise (Exn "AssertionError" PyNone), w') /\
    files w' !! "test_audio.mp3" = Some [].
Proof.
  apply (audio_test_empty_stream (P := Demo.mute) (Demo.mute_world ∅) tt).
  - reflexivity.
  - reflexivity.
Defined.
